(** * check-operator-ready: readiness polling of the OpenTelemetry operator

    A shallow embedding of [hack/check-operator-ready.go].  The program
    builds a cluster client, polls until the operator deployment can be
    read, then polls until an OpenTelemetryCollector can be created, and
    exits with a status code.

    The file has two parts.

    - [ReadinessChecker] is the polling primitive.  The program calls
      [wait.Poll] of [k8s.io/apimachinery], whose code is not part of
      [hack/check-operator-ready.go]; it is modelled from section 4.1 of
      the specification.
    - [CheckOperatorReady] embeds [main] and its two condition closures
      from the source, parametrised by the polling function and by the
      answers of the cluster.  The registration of the schemes in [init]
      and the parsing of the command line are not modelled: [main] starts
      from the parsed flags. *)

From Stdlib Require Import ZArith List String Lia Bool.
From Equations Require Import Equations.
Import ListNotations.

Local Open Scope Z_scope.

(** ** Durations and errors *)

(** [time.Duration]: a signed 64-bit count of nanoseconds. *)
Definition Duration := Z.

Definition Nanosecond : Duration := 1.
Definition Microsecond : Duration := 1000 * Nanosecond.
Definition Millisecond : Duration := 1000 * Microsecond.
Definition Second : Duration := 1000 * Millisecond.

(** Two's complement wrap-around of a 64-bit signed integer. *)
Definition int64 (z : Z) : Z := (z + 2 ^ 63) mod 2 ^ 64 - 2 ^ 63.

(** Go's [error] values.  [ErrWaitTimeout] is the sentinel that the polling
    package returns on timeout; every other error carries its message. *)
Inductive error : Type :=
| ErrWaitTimeout
| errorString (msg : string).

(** [err.Error()]. *)
Definition Error (e : error) : string :=
  match e with
  | ErrWaitTimeout => "timed out waiting for the condition"
  | errorString msg => msg
  end.

(** ** The polling primitive *)

Module ReadinessChecker.

(** What one probe attempt reports. *)
Inductive CondResult : Type :=
| Success
| Retry
| FatalError (e : error).

(** What a poll reports. *)
Inductive Outcome : Type :=
| Succeeded
| TimedOut
| Failed (e : error).

(** What a poll does, in order: it invokes the condition, or it sleeps. *)
Inductive Event : Type :=
| Probe (r : CondResult)
| Sleep (d : Duration).

(** A [PollSpec] over a world of type [W].  The condition is a
    side-effecting probe: it reads the world and leaves a new one.  The
    invariant [interval > 0] is carried by the type of [interval]. *)
Record PollSpec (W : Type) : Type := {
  interval : positive;
  timeout : Duration;
  condition : W -> CondResult * W
}.
Arguments interval {W} _.
Arguments timeout {W} _.
Arguments condition {W} _ _.

(** The result of a poll, with the events it went through and the world
    it leaves. *)
Record Run (W : Type) : Type := {
  outcome : Outcome;
  trace : list Event;
  final : W
}.
Arguments Build_Run {W} _ _ _.
Arguments outcome {W} _.
Arguments trace {W} _.
Arguments final {W} _.

Definition after {W} (evs : list Event) (r : Run W) : Run W :=
  {| outcome := outcome r; trace := evs ++ trace r; final := final r |}.

Definition inspect {A} (a : A) : {b : A | a = b} := exist _ a eq_refl.

(** Modelled from the spec: the body of [wait.Poll], which is not in the
    source file.  Section 4.1: invoke the condition at once; on [Success]
    return success with no wait; on [FatalError] stop and propagate; on
    [Retry] sleep for [interval] and invoke again, until the cumulative
    elapsed time would exceed [timeout].  The attempts therefore happen
    at the instants [0], [interval], [2 * interval], ... that do not
    exceed [timeout]: with a zero timeout there is a single attempt and
    no wait, an attempt exactly at the timeout instant is still made and
    its success is reported as success, and no attempt is made after the
    timeout has elapsed.  [elapsed] is the time slept so far; a probe is
    taken to be instantaneous. *)
Equations? poll_from {W} (spec : PollSpec W) (elapsed : Duration) (s : W)
  : Run W
  by wf (Z.to_nat ((timeout spec - elapsed) / Z.pos (interval spec))) lt :=
  poll_from spec elapsed s with condition spec s => {
    | (Success, s') := Build_Run Succeeded [Probe Success] s';
    | (FatalError e, s') := Build_Run (Failed e) [Probe (FatalError e)] s';
    | (Retry, s')
        with inspect (elapsed + Z.pos (interval spec) <=? timeout spec) => {
        | exist _ true Hin :=
            after [Probe Retry; Sleep (Z.pos (interval spec))]
              (poll_from spec (elapsed + Z.pos (interval spec)) s');
        | exist _ false _ := Build_Run TimedOut [Probe Retry] s' } }.
Proof.
  apply Z.leb_le in Hin.
  replace (timeout spec - (elapsed + Z.pos (interval spec)))
    with ((timeout spec - elapsed) + (-1) * Z.pos (interval spec)) by ring.
  rewrite Z.div_add by lia.
  assert (1 <= (timeout spec - elapsed) / Z.pos (interval spec))
    by (apply Z.div_le_lower_bound; lia).
  lia.
Qed.

(** Modelled from the spec: [Poll(spec: PollSpec) -> Outcome] of section
    4.1, which stands for the absent [wait.Poll]. *)
Definition Poll {W} (spec : PollSpec W) (s : W) : Run W :=
  poll_from spec 0 s.

(** Observations on a run. *)
Definition is_probe (ev : Event) : bool :=
  match ev with Probe _ => true | Sleep _ => false end.

Definition is_fatal_probe (ev : Event) : bool :=
  match ev with Probe (FatalError _) => true | _ => false end.

Definition invocations {W} (r : Run W) : nat :=
  List.length (List.filter is_probe (trace r)).

Definition sleeps {W} (r : Run W) : nat :=
  List.length (List.filter (fun ev => negb (is_probe ev)) (trace r)).

Definition slept {W} (r : Run W) : Duration :=
  List.fold_right
    (fun ev acc => match ev with Sleep d => d + acc | Probe _ => acc end)
    0 (trace r).

(** The world in which the condition is invoked for the [n+1]-th time,
    and what it answers there. *)
Fixpoint world_at {W} (cond : W -> CondResult * W) (n : nat) (s : W) : W :=
  match n with
  | O => s
  | S n' => world_at cond n' (snd (cond s))
  end.

Definition result_at {W} (cond : W -> CondResult * W) (n : nat) (s : W)
  : CondResult :=
  fst (cond (world_at cond n s)).

(** A scripted probe for tests: the world is the number of invocations
    so far and the script gives the answer of each one. *)
Definition scripted (script : nat -> CondResult) : nat -> CondResult * nat :=
  fun n => (script n, S n).

End ReadinessChecker.

(** ** The program *)

Module CheckOperatorReady.

(** *** The outside world *)

(** [client.ObjectKey]: the name of an object in a namespace. *)
Record ObjectKey : Type := {
  Name : string;
  Namespace : string
}.

(** [otelv1alpha1.OpenTelemetryCollector], of which the program sets the
    name and the namespace of its [ObjectMeta]. *)
Record OpenTelemetryCollector : Type := {
  ObjectMeta : ObjectKey
}.

(** [rest.Config], the credentials read from the kubeconfig file. *)
Record Config : Type := {
  Host : string
}.

(** The cluster client.  The cluster is outside the program: what it
    answers to the [n+1]-th call of a method is given by the client. *)
Record Client : Type := {
  Get : ObjectKey -> nat -> option error;
  Create : OpenTelemetryCollector -> nat -> option error;
  Delete : OpenTelemetryCollector -> nat -> option error
}.

(** The two constructors the program calls before it polls; each returns
    a value and an error, as in Go. *)
Record Env : Type := {
  BuildConfigFromFlags : string -> string -> Config * option error;
  New : Config -> Client * option error
}.

(** The command line, after [pflag.Parse]. *)
Record Flags : Type := {
  timeout : Z;
  kubeconfigPath : string
}.

(** A line written by the program. [fmt.Println] writes to the standard
    output and the builtin [println] to the standard error; the builtin
    prints an interface value as its two machine words, so that line
    keeps the value instead of a text. *)
Inductive Line : Type :=
| Stdout (text : string)
| Stderr (text : string)
| StderrValue (text : string) (v : error).

(** What the program has done so far: the lines written and the number
    of calls made to each method of the client. *)
Record State : Type := {
  output : list Line;
  gets : nat;
  creates : nat;
  deletes : nat
}.

Definition start : State :=
  {| output := []; gets := 0; creates := 0; deletes := 0 |}.

(** *** Effects: a state monad, and early exit on top of it *)

Definition St (A : Type) : Type := State -> A * State.

Definition ret {A} (a : A) : St A := fun s => (a, s).

Definition bind {A B} (m : St A) (k : A -> St B) : St B :=
  fun s => let (a, s') := m s in k a s'.

(** A computation of [main] either goes on with a value or has called
    [os.Exit]. *)
Inductive Res (A : Type) : Type :=
| Done (a : A)
| Exited (code : Z).
Arguments Done {A} _.
Arguments Exited {A} _.

Definition M (A : Type) : Type := St (Res A).

Definition retM {A} (a : A) : M A := ret (Done a).

Definition bindM {A B} (m : M A) (k : A -> M B) : M B :=
  fun s =>
    match m s with
    | (Done a, s') => k a s'
    | (Exited code, s') => (Exited code, s')
    end.

Definition lift {A} (m : St A) : M A :=
  fun s => let (a, s') := m s in (Done a, s').

Declare Scope prog_scope.
Delimit Scope prog_scope with prog.
Notation "x <~ m ; k" := (bind m (fun x => k))
  (at level 61, m at next level, right associativity) : prog_scope.
Notation "m ;~ k" := (bind m (fun _ => k))
  (at level 61, right associativity) : prog_scope.
Notation "x <- m ;; k" := (bindM m (fun x => k))
  (at level 61, m at next level, right associativity) : prog_scope.
Notation "m ;; k" := (bindM m (fun _ => k))
  (at level 61, right associativity) : prog_scope.
Local Open Scope prog_scope.

Definition write (l : Line) : St unit :=
  fun s =>
    (tt, {| output := output s ++ [l]; gets := gets s;
            creates := creates s; deletes := deletes s |}).

Module fmt.
Definition Println (text : string) : St unit := write (Stdout text).
End fmt.

Module os.
Definition Exit {A} (code : Z) : M A := fun s => (Exited code, s).
End os.

(** The builtin [println] with string arguments, joined by spaces. *)
Definition println (a b : string) : St unit :=
  write (Stderr (a ++ " " ++ b)).

(** The builtin [println] with a string and an error value. *)
Definition println_value (a : string) (v : error) : St unit :=
  write (StderrValue a v).

(** The three methods of [clusterClient]; each call asks the cluster and
    counts. *)
Definition clusterClient_Get (clusterClient : Client) (key : ObjectKey)
  : St (option error) :=
  fun s =>
    (Get clusterClient key (gets s),
     {| output := output s; gets := S (gets s);
        creates := creates s; deletes := deletes s |}).

Definition clusterClient_Create (clusterClient : Client)
  (obj : OpenTelemetryCollector) : St (option error) :=
  fun s =>
    (Create clusterClient obj (creates s),
     {| output := output s; gets := gets s;
        creates := S (creates s); deletes := deletes s |}).

Definition clusterClient_Delete (clusterClient : Client)
  (obj : OpenTelemetryCollector) : St (option error) :=
  fun s =>
    (Delete clusterClient obj (deletes s),
     {| output := output s; gets := gets s;
        creates := creates s; deletes := S (deletes s) |}).

(** [wait.ConditionFunc]: [func() (done bool, err error)]. *)
Definition ConditionFunc : Type := St (bool * option error).

(** The signature of [wait.Poll]:
    [func(interval, timeout time.Duration, condition ConditionFunc) error]. *)
Definition PollFunc : Type :=
  Duration -> Duration -> ConditionFunc -> St (option error).

(** *** The source *)

Definition pollInterval : Duration := 500 * Millisecond.

Definition timeoutPoll (flags : Flags) : Duration :=
  int64 (timeout flags * Second).

Definition operatorKey : ObjectKey :=
  {| Name := "opentelemetry-operator-controller-manager";
     Namespace := "opentelemetry-operator-system" |}.

Definition collectorInstance : OpenTelemetryCollector :=
  {| ObjectMeta := {| Name := "operator-check"; Namespace := "default" |} |}.

(** The closure of lines 74-88: one read of the operator deployment. *)
Definition deploymentCondition (clusterClient : Client) : ConditionFunc :=
  err <~ clusterClient_Get clusterClient operatorKey ;
  match err with
  | Some e => fmt.Println (Error e) ;~ ret (false, None)
  | None => ret (true, None)
  end.

(** The closure of lines 110-120: one attempt to create the collector. *)
Definition collectorCondition (clusterClient : Client) : ConditionFunc :=
  err <~ clusterClient_Create clusterClient collectorInstance ;
  match err with
  | Some e => fmt.Println (Error e) ;~ ret (false, None)
  | None => ret (true, None)
  end.

Section Main.

(** [wait.Poll], whose code is outside the source file, and the
    cluster the program talks to. *)
Variable Poll : PollFunc.
Variable env : Env.

(** [main] is the sequence of five blocks. *)

(** Lines 59-69: read the kubeconfig and build the client. *)
Definition connect (flags : Flags) : M Client :=
  fun s =>
    let (config, err) := BuildConfigFromFlags env EmptyString (kubeconfigPath flags) in
    match err with
    | Some e =>
        (println "Error reading the kubeconfig:" (Error e) ;~ os.Exit 1) s
    | None =>
        let (clusterClient, err) := New env config in
        match err with
        | Some e =>
            (println_value "Creating the Kubernetes client" e ;~ os.Exit 1) s
        | None => retM clusterClient s
        end
    end.

(** Lines 71-88: the first poll, for the operator deployment. *)
Definition waitForOperator (flags : Flags) (clusterClient : Client)
  : St (option error) :=
  fmt.Println "Waiting until the OTEL Collector Operator is deployed" ;~
  Poll pollInterval (timeoutPoll flags) (deploymentCondition clusterClient).

(** Lines 90-93: what is done with the error of the first poll. *)
Definition reportOperator (err : option error) : St unit :=
  match err with
  | Some e => fmt.Println (Error e)
  | None => ret tt
  end ;~
  fmt.Println "OTEL Collector Operator is deployed properly!".

(** Lines 99-120: clean up, then the second poll, which creates the
    collector. *)
Definition waitForCollector (flags : Flags) (clusterClient : Client)
  : St (option error) :=
  _ <~ clusterClient_Delete clusterClient collectorInstance ;
  fmt.Println "Ensure the creation of OTEL Collectors is available" ;~
  Poll pollInterval (timeoutPoll flags) (collectorCondition clusterClient).

(** Lines 122-127: what is done with the error of the second poll. *)
Definition finish (clusterClient : Client) (err : option error) : M unit :=
  match err with
  | Some e => lift (fmt.Println (Error e)) ;; os.Exit 1
  | None =>
      lift (_ <~ clusterClient_Delete clusterClient collectorInstance ;
            ret tt)
  end.

Definition main (flags : Flags) : M unit :=
  clusterClient <- connect flags ;;
  err <- lift (waitForOperator flags clusterClient) ;;
  lift (reportOperator err) ;;
  err <- lift (waitForCollector flags clusterClient) ;;
  finish clusterClient err.

(** The exit code of the process: [0] when [main] returns. *)
Definition exit_code (r : Res unit * State) : Z :=
  match fst r with
  | Done _ => 0
  | Exited code => code
  end.

End Main.

End CheckOperatorReady.

(** ** The polling function at the signature the program calls *)

Module wait.

Import ReadinessChecker CheckOperatorReady.

(** Modelled from the spec: how the result [(done, err)] of a
    [ConditionFunc] is read as one of the three probe results of section
    4.1: an error is fatal, otherwise [done] tells success from retry. *)
Definition classify (r : bool * option error) : CondResult :=
  match r with
  | (_, Some e) => FatalError e
  | (true, None) => Success
  | (false, None) => Retry
  end.

(** Modelled from the spec: the [error] by which [wait.Poll] reports an
    outcome of section 4.1 to its caller. *)
Definition outcome_error (o : Outcome) : option error :=
  match o with
  | Succeeded => None
  | TimedOut => Some ErrWaitTimeout
  | Failed e => Some e
  end.

(** The [PollSpec] of a call [wait.Poll(interval, timeout, condition)]. *)
Definition PollSpec_of (interval timeout : Duration)
  (condition : ConditionFunc) : PollSpec State :=
  {| ReadinessChecker.interval := Z.to_pos interval;
     ReadinessChecker.timeout := timeout;
     ReadinessChecker.condition :=
       fun s => let (r, s') := condition s in (classify r, s') |}.

(** Modelled from the spec: [wait.Poll], which is not in the source file,
    as the [Poll] of section 4.1 run on the state of the program.  The
    program only passes [pollInterval], which is positive. *)
Definition Poll : PollFunc :=
  fun interval timeout condition s =>
    let r := ReadinessChecker.Poll (PollSpec_of interval timeout condition) s in
    (outcome_error (outcome r), final r).

End wait.

(** ** Sample probes and clusters, used to run the definitions *)

Module Samples.

Import ReadinessChecker CheckOperatorReady.

(** A script that answers [Retry] [k] times and [Success] from then on. *)
Definition retries_then_success (k : nat) (n : nat) : CondResult :=
  if (n <? k)%nat then Retry else Success.

(** A poll of a scripted probe, started with no invocation made. *)
Definition scripted_spec (interval : positive) (timeout : Duration)
  (script : nat -> CondResult) : PollSpec nat :=
  {| ReadinessChecker.interval := interval;
     ReadinessChecker.timeout := timeout;
     ReadinessChecker.condition := scripted script |}.

Definition notFound : error :=
  errorString "deployments.apps opentelemetry-operator-controller-manager not found".
Definition webhookDown : error :=
  errorString "failed calling webhook: connection refused".
Definition gone : error :=
  errorString "opentelemetrycollectors operator-check not found".

(** A client whose answers depend only on how many calls were made. *)
Definition client_of (get create delete : nat -> option error) : Client :=
  {| Get := fun _ n => get n;
     Create := fun _ n => create n;
     Delete := fun _ n => delete n |}.

(** A cluster that can be reached, with a given client. *)
Definition reachable (clusterClient : Client) : Env :=
  {| BuildConfigFromFlags :=
       fun _ _ => ({| Host := "https://127.0.0.1:6443" |}, None);
     New := fun _ => (clusterClient, None) |}.

(** No kubeconfig file. *)
Definition no_kubeconfig (clusterClient : Client) : Env :=
  {| BuildConfigFromFlags :=
       fun _ path =>
         ({| Host := EmptyString |},
          Some (errorString ("stat " ++ path ++ ": no such file or directory")));
     New := fun _ => (clusterClient, None) |}.

(** A kubeconfig from which no client can be built. *)
Definition no_client (clusterClient : Client) : Env :=
  {| BuildConfigFromFlags :=
       fun _ _ => ({| Host := "https://127.0.0.1:6443" |}, None);
     New := fun _ => (clusterClient, Some (errorString "no such host")) |}.

Definition never : nat -> option error := fun _ => None.
Definition always (e : error) : nat -> option error := fun _ => Some e.
Definition fails_until (k : nat) (e : error) : nat -> option error :=
  fun n => if (n <? k)%nat then Some e else None.

Definition flags_of (seconds : Z) : Flags :=
  {| CheckOperatorReady.timeout := seconds;
     kubeconfigPath := "/root/.kube/config" |}.

End Samples.

(** ** Repeated invocations of a condition *)

Module Invocations.

Import CheckOperatorReady.

Local Open Scope nat_scope.

(** The state after [n] invocations in a row of a condition function. *)
Fixpoint invoke_n (cond : ConditionFunc) (n : nat) (s : State) : State :=
  match n with
  | O => s
  | S n' => invoke_n cond n' (snd (cond s))
  end.

(** The line that [fmt.Println(err)] writes under [if err != nil]. *)
Definition error_line (err : option error) : list Line :=
  match err with
  | Some e => [Stdout (Error e)]
  | None => []
  end.

(** The lines of the errors among the answers number [first], ...,
    [first + n - 1] of a method of the client, in order. *)
Fixpoint error_lines (reply : nat -> option error) (first n : nat)
  : list Line :=
  match n with
  | O => []
  | S n' => error_line (reply first) ++ error_lines reply (S first) n'
  end.

(** A polling function that acts on the state of the program only by
    invoking its condition, some number of times. *)
Definition condition_driven (Poll : PollFunc) : Prop :=
  forall interval timeout cond s,
    exists n, snd (Poll interval timeout cond s) = invoke_n cond n s.


End Invocations.

(** * Properties of the polling primitive *)

Section PollFacts.

Import ReadinessChecker.

Context {W : Type}.
Variable spec : PollSpec W.

(** One step of the loop, as a plain case analysis. *)
Lemma poll_from_unfold (elapsed : Duration) (s : W) :
  poll_from spec elapsed s =
  match condition spec s with
  | (Success, s') => Build_Run Succeeded [Probe Success] s'
  | (FatalError e, s') => Build_Run (Failed e) [Probe (FatalError e)] s'
  | (Retry, s') =>
      if elapsed + Z.pos (interval spec) <=? timeout spec
      then after [Probe Retry; Sleep (Z.pos (interval spec))]
             (poll_from spec (elapsed + Z.pos (interval spec)) s')
      else Build_Run TimedOut [Probe Retry] s'
  end.
Proof.
  rewrite poll_from_equation_1.
  destruct (condition spec s) as [[ | | e] s']; simpl; try reflexivity.
  destruct (elapsed + Z.pos (interval spec) <=? timeout spec); reflexivity.
Qed.

Lemma poll_from_Success (elapsed : Duration) (s : W) :
  fst (condition spec s) = Success ->
  poll_from spec elapsed s =
  Build_Run Succeeded [Probe Success] (snd (condition spec s)).
Proof.
  intros H. rewrite poll_from_unfold.
  destruct (condition spec s) as [r s']; simpl in *; subst r; reflexivity.
Qed.

Lemma poll_from_FatalError (elapsed : Duration) (s : W) (e : error) :
  fst (condition spec s) = FatalError e ->
  poll_from spec elapsed s =
  Build_Run (Failed e) [Probe (FatalError e)] (snd (condition spec s)).
Proof.
  intros H. rewrite poll_from_unfold.
  destruct (condition spec s) as [r s']; simpl in *; subst r; reflexivity.
Qed.

Lemma poll_from_Retry_again (elapsed : Duration) (s : W) :
  fst (condition spec s) = Retry ->
  elapsed + Z.pos (interval spec) <= timeout spec ->
  poll_from spec elapsed s =
  after [Probe Retry; Sleep (Z.pos (interval spec))]
    (poll_from spec (elapsed + Z.pos (interval spec)) (snd (condition spec s))).
Proof.
  intros H Hle. rewrite poll_from_unfold.
  destruct (condition spec s) as [r s']; simpl in *; subst r.
  apply Z.leb_le in Hle. rewrite Hle. reflexivity.
Qed.

Lemma poll_from_Retry_stop (elapsed : Duration) (s : W) :
  fst (condition spec s) = Retry ->
  timeout spec < elapsed + Z.pos (interval spec) ->
  poll_from spec elapsed s =
  Build_Run TimedOut [Probe Retry] (snd (condition spec s)).
Proof.
  intros H Hlt. rewrite poll_from_unfold.
  destruct (condition spec s) as [r s']; simpl in *; subst r.
  apply Z.leb_gt in Hlt. rewrite Hlt. reflexivity.
Qed.

Lemma invocations_after_retry (r : Run W) (d : Duration) :
  invocations (after [Probe Retry; Sleep d] r) = S (invocations r).
Proof. reflexivity. Qed.

Lemma sleeps_after_retry (r : Run W) (d : Duration) :
  sleeps (after [Probe Retry; Sleep d] r) = S (sleeps r).
Proof. reflexivity. Qed.

Lemma slept_after_retry (r : Run W) (d : Duration) :
  slept (after [Probe Retry; Sleep d] r) = d + slept r.
Proof. reflexivity. Qed.

Lemma outcome_after (evs : list Event) (r : Run W) :
  outcome (after evs r) = outcome r.
Proof. reflexivity. Qed.

(** Every run starts with an invocation of the condition: nothing, and
    in particular no sleep, comes before it. *)
Lemma trace_starts_with_probe (elapsed : Duration) (s : W) :
  exists rest,
    trace (poll_from spec elapsed s) = Probe (fst (condition spec s)) :: rest.
Proof.
  rewrite poll_from_unfold.
  destruct (condition spec s) as [[ | | e] s']; simpl; eauto.
  destruct (elapsed + Z.pos (interval spec) <=? timeout spec); simpl; eauto.
Qed.

(** C1. When the condition answers [Success] at every invocation, [Poll]
    invokes it at once, before any sleep, and returns [Succeeded] after
    exactly one invocation, whatever the timeout is: the whole trace is
    that single successful probe. *)
Theorem Poll_always_Success (s : W) :
  (forall w, fst (condition spec w) = Success) ->
  outcome (Poll spec s) = Succeeded /\
  trace (Poll spec s) = [Probe Success] /\
  invocations (Poll spec s) = 1%nat /\
  sleeps (Poll spec s) = 0%nat /\
  final (Poll spec s) = snd (condition spec s).
Proof.
  intros H. unfold Poll. rewrite (poll_from_Success 0 s (H s)).
  repeat split.
Qed.

(** C5. When the first invocation answers [FatalError e], [Poll] returns
    [Failed e] at once: the trace is that single probe, with no sleep
    and no further invocation. *)
Theorem Poll_FatalError_first (s : W) (e : error) :
  fst (condition spec s) = FatalError e ->
  outcome (Poll spec s) = Failed e /\
  trace (Poll spec s) = [Probe (FatalError e)] /\
  invocations (Poll spec s) = 1%nat /\
  sleeps (Poll spec s) = 0%nat /\
  final (Poll spec s) = snd (condition spec s).
Proof.
  intros H. unfold Poll. rewrite (poll_from_FatalError 0 s e H).
  repeat split.
Qed.

(** C3. With a zero timeout [Poll] makes exactly one probe attempt and
    does not wait, and the outcome is that of the single attempt; in
    particular a condition that always answers [Retry] gives [TimedOut]
    after exactly one invocation. *)
Theorem Poll_zero_timeout (s : W) :
  timeout spec = 0 ->
  trace (Poll spec s) = [Probe (fst (condition spec s))] /\
  invocations (Poll spec s) = 1%nat /\
  sleeps (Poll spec s) = 0%nat /\
  outcome (Poll spec s) =
    match fst (condition spec s) with
    | Success => Succeeded
    | Retry => TimedOut
    | FatalError e => Failed e
    end /\
  ((forall w, fst (condition spec w) = Retry) ->
   outcome (Poll spec s) = TimedOut /\ invocations (Poll spec s) = 1%nat).
Proof.
  intros HT. unfold Poll.
  assert (Hcases :
    poll_from spec 0 s =
    Build_Run
      match fst (condition spec s) with
      | Success => Succeeded
      | Retry => TimedOut
      | FatalError e => Failed e
      end
      [Probe (fst (condition spec s))] (snd (condition spec s))).
  { destruct (fst (condition spec s)) as [ | | e] eqn:Hr.
    - now apply poll_from_Success.
    - apply poll_from_Retry_stop; [assumption | lia].
    - now apply poll_from_FatalError. }
  rewrite Hcases. simpl.
  split; [reflexivity | split; [reflexivity | split; [reflexivity | ]]].
  split; [reflexivity | ].
  intros Hall. rewrite (Hall s). split; reflexivity.
Qed.

(** [k] retries followed by a success, started when [elapsed] has already
    been slept: the [k] sleeps must fit before the timeout. *)
Lemma poll_from_retry_then_success (k : nat) :
  forall (elapsed : Duration) (s : W),
    (forall j, (j < k)%nat -> result_at (condition spec) j s = Retry) ->
    result_at (condition spec) k s = Success ->
    elapsed + Z.of_nat k * Z.pos (interval spec) <= timeout spec ->
    outcome (poll_from spec elapsed s) = Succeeded /\
    invocations (poll_from spec elapsed s) = S k /\
    sleeps (poll_from spec elapsed s) = k.
Proof.
  induction k as [ | k IH]; intros elapsed s Hretry Hsucc Hfit.
  - rewrite (poll_from_Success elapsed s Hsucc). repeat split.
  - assert (H0 : fst (condition spec s) = Retry)
      by (apply (Hretry 0%nat); lia).
    rewrite (poll_from_Retry_again elapsed s H0) by nia.
    destruct (IH (elapsed + Z.pos (interval spec)) (snd (condition spec s)))
      as (Hout & Hinv & Hsl).
    + intros j Hj. apply (Hretry (S j)). lia.
    + exact Hsucc.
    + nia.
    + rewrite outcome_after, invocations_after_retry, sleeps_after_retry.
      rewrite Hinv, Hsl. repeat split. exact Hout.
Qed.

(** C4. When the condition answers [Retry] at its first [k] invocations
    and [Success] at invocation [k+1], and [k * interval < timeout], [Poll]
    returns [Succeeded] after exactly [k+1] invocations. *)
Theorem Poll_retry_then_Success (k : nat) (s : W) :
  (forall j, (j < k)%nat -> result_at (condition spec) j s = Retry) ->
  result_at (condition spec) k s = Success ->
  Z.of_nat k * Z.pos (interval spec) < timeout spec ->
  outcome (Poll spec s) = Succeeded /\
  invocations (Poll spec s) = S k.
Proof.
  intros Hretry Hsucc Hfit.
  destruct (poll_from_retry_then_success k 0 s Hretry Hsucc) as (Ho & Hi & _).
  - lia.
  - unfold Poll. split; assumption.
Qed.

(** A condition that never succeeds, started when [elapsed] has already
    been slept: the number of invocations is one more than the number of
    whole intervals left before the timeout. *)
Lemma poll_from_always_Retry :
  (forall w, fst (condition spec w) = Retry) ->
  forall (n : nat) (elapsed : Duration) (s : W),
    Z.to_nat ((timeout spec - elapsed) / Z.pos (interval spec)) = n ->
    outcome (poll_from spec elapsed s) = TimedOut /\
    invocations (poll_from spec elapsed s) = S n /\
    slept (poll_from spec elapsed s) = Z.of_nat n * Z.pos (interval spec).
Proof.
  intros Hall n.
  induction n as [ | n IH]; intros elapsed s Hn.
  - rewrite (poll_from_Retry_stop elapsed s (Hall s)); [repeat split | ].
    destruct (Z_lt_le_dec (timeout spec) (elapsed + Z.pos (interval spec)))
      as [Hlt | Hle]; [exact Hlt | exfalso].
    assert (1 <= (timeout spec - elapsed) / Z.pos (interval spec))
      by (apply Z.div_le_lower_bound; lia).
    lia.
  - assert (Hq : (timeout spec - elapsed) / Z.pos (interval spec)
                 = Z.of_nat (S n)) by lia.
    assert (Hle : elapsed + Z.pos (interval spec) <= timeout spec).
    { destruct (Z_lt_le_dec (timeout spec) (elapsed + Z.pos (interval spec)))
        as [Hlt | Hle]; [exfalso | exact Hle].
      assert ((timeout spec - elapsed) / Z.pos (interval spec) <= 0).
      { destruct (Z_lt_le_dec (timeout spec - elapsed) 0) as [Hneg | Hpos].
        - assert ((timeout spec - elapsed) / Z.pos (interval spec) < 0)
            by (apply Z.div_lt_upper_bound; lia).
          lia.
        - rewrite Z.div_small by lia. lia. }
      lia. }
    rewrite (poll_from_Retry_again elapsed s (Hall s) Hle).
    destruct (IH (elapsed + Z.pos (interval spec)) (snd (condition spec s)))
      as (Hout & Hinv & Hsl).
    + replace (timeout spec - (elapsed + Z.pos (interval spec)))
        with ((timeout spec - elapsed) + (-1) * Z.pos (interval spec)) by ring.
      rewrite Z.div_add by lia. lia.
    + rewrite outcome_after, invocations_after_retry, slept_after_retry.
      rewrite Hinv, Hsl. repeat split; [exact Hout | lia].
Qed.

(** C6. With a positive timeout [T] (and the interval [I], positive by
    its type), a condition that always answers [Retry] makes [Poll] return
    [TimedOut] after finitely many invocations: [T / I + 1] of them, which
    differs from the quotient by at most one, whether the quotient is the
    integer one or the exact one, which lies between [n - 1] and [n]. *)
Theorem Poll_always_Retry (s : W) :
  0 < timeout spec ->
  (forall w, fst (condition spec w) = Retry) ->
  let n := Z.of_nat (invocations (Poll spec s)) in
  outcome (Poll spec s) = TimedOut /\
  n = timeout spec / Z.pos (interval spec) + 1 /\
  Z.abs (n - timeout spec / Z.pos (interval spec)) <= 1 /\
  (n - 1) * Z.pos (interval spec) <= timeout spec < n * Z.pos (interval spec).
Proof.
  intros HT Hall. unfold Poll.
  destruct (poll_from_always_Retry Hall
              (Z.to_nat (timeout spec / Z.pos (interval spec))) 0 s)
    as (Hout & Hinv & _).
  - now rewrite Z.sub_0_r.
  - cbv zeta. rewrite Hinv.
    assert (Hq : 0 <= timeout spec / Z.pos (interval spec))
      by (apply Z.div_pos; lia).
    pose proof (Z.mul_div_le (timeout spec) (Z.pos (interval spec))
                  ltac:(lia)) as Hlo.
    pose proof (Z.mul_succ_div_gt (timeout spec) (Z.pos (interval spec))
                  ltac:(lia)) as Hhi.
    rewrite Nat2Z.inj_succ, Z2Nat.id by lia.
    repeat split; try assumption; try lia.
Qed.

(** Induction along the attempts of a poll. *)
Lemma poll_from_ind (P : Duration -> W -> Run W -> Prop) :
  (forall elapsed s,
      fst (condition spec s) = Success ->
      P elapsed s (Build_Run Succeeded [Probe Success] (snd (condition spec s)))) ->
  (forall elapsed s e,
      fst (condition spec s) = FatalError e ->
      P elapsed s
        (Build_Run (Failed e) [Probe (FatalError e)] (snd (condition spec s)))) ->
  (forall elapsed s,
      fst (condition spec s) = Retry ->
      timeout spec < elapsed + Z.pos (interval spec) ->
      P elapsed s (Build_Run TimedOut [Probe Retry] (snd (condition spec s)))) ->
  (forall elapsed s,
      fst (condition spec s) = Retry ->
      elapsed + Z.pos (interval spec) <= timeout spec ->
      P (elapsed + Z.pos (interval spec)) (snd (condition spec s))
        (poll_from spec (elapsed + Z.pos (interval spec))
           (snd (condition spec s))) ->
      P elapsed s
        (after [Probe Retry; Sleep (Z.pos (interval spec))]
           (poll_from spec (elapsed + Z.pos (interval spec))
              (snd (condition spec s))))) ->
  forall elapsed s, P elapsed s (poll_from spec elapsed s).
Proof.
  intros Hsucc Hfatal Hstop Hagain elapsed s.
  remember (Z.to_nat ((timeout spec - elapsed) / Z.pos (interval spec))) as n
    eqn:Hn.
  revert elapsed s Hn.
  induction n as [n IH] using lt_wf_ind; intros elapsed s Hn.
  destruct (fst (condition spec s)) as [ | | e] eqn:Hr.
  - rewrite (poll_from_Success elapsed s Hr). now apply Hsucc.
  - destruct (Z_lt_le_dec (timeout spec) (elapsed + Z.pos (interval spec)))
      as [Hlt | Hle].
    + rewrite (poll_from_Retry_stop elapsed s Hr Hlt). now apply Hstop.
    + rewrite (poll_from_Retry_again elapsed s Hr Hle).
      apply Hagain; [assumption | assumption | ].
      eapply IH; [ | reflexivity]. subst n.
      replace (timeout spec - (elapsed + Z.pos (interval spec)))
        with ((timeout spec - elapsed) + (-1) * Z.pos (interval spec)) by ring.
      rewrite Z.div_add by lia.
      assert (1 <= (timeout spec - elapsed) / Z.pos (interval spec))
        by (apply Z.div_le_lower_bound; lia).
      lia.
  - rewrite (poll_from_FatalError elapsed s e Hr). now apply Hfatal.
Qed.

(** A poll fails only with an error that its condition reported as fatal,
    and that report is the last event of the run. *)
Lemma poll_from_Failed_origin (elapsed : Duration) (s : W) (e : error) :
  outcome (poll_from spec elapsed s) = Failed e ->
  In (Probe (FatalError e)) (trace (poll_from spec elapsed s)).
Proof.
  revert elapsed s.
  apply (poll_from_ind
           (fun _ _ r => outcome r = Failed e ->
                         In (Probe (FatalError e)) (trace r))); simpl.
  - discriminate.
  - intros _ _ e' _ [= ->]. now left.
  - discriminate.
  - intros elapsed s _ _ IH H. right; right. now apply IH.
Qed.

(** The probes of a run are answers of the condition. *)
Lemma poll_from_probes (elapsed : Duration) (s : W) (r : CondResult) :
  In (Probe r) (trace (poll_from spec elapsed s)) ->
  exists w, fst (condition spec w) = r.
Proof.
  revert elapsed s.
  apply (poll_from_ind
           (fun _ _ run => In (Probe r) (trace run) ->
                           exists w, fst (condition spec w) = r)); simpl.
  - intros _ s Hs [[= <-] | []]. now exists s.
  - intros _ s e Hs [[= <-] | []]. now exists s.
  - intros _ s Hs _ [[= <-] | []]. now exists s.
  - intros elapsed s Hs _ IH [[= <-] | [[=] | H]];
      [now exists s | now apply IH].
Qed.

(** When the condition never reports a fatal error, a poll ends in
    [Succeeded] or [TimedOut]. *)
Lemma poll_from_never_fatal (elapsed : Duration) (s : W) :
  (forall w e, fst (condition spec w) <> FatalError e) ->
  outcome (poll_from spec elapsed s) = Succeeded \/
  outcome (poll_from spec elapsed s) = TimedOut.
Proof.
  intros Hnever.
  destruct (outcome (poll_from spec elapsed s)) as [ | | e] eqn:Hout; auto.
  apply poll_from_Failed_origin, poll_from_probes in Hout.
  destruct Hout as [w Hw]. now apply Hnever in Hw.
Qed.

End PollFacts.

(** ** Runs of the polling primitive *)

Section PollRuns.

Import ReadinessChecker Samples.

(** Scenario of section 8: interval 500ms, timeout 2s, three retries and
    then a success: four calls, 1.5s slept. *)
Example scenario_three_retries :
  let r := Poll (scripted_spec 500000000 (2 * Second) (retries_then_success 3))
             0%nat in
  outcome r = Succeeded /\ invocations r = 4%nat /\ slept r = 1500000000.
Proof. vm_compute. repeat split. Qed.

(** Scenario of section 8: interval 500ms, timeout 1s, the condition
    always retries: three calls, 1s slept. *)
Example scenario_always_retry :
  let r := Poll (scripted_spec 500000000 (1 * Second) (fun _ => Retry)) 0%nat in
  outcome r = TimedOut /\ invocations r = 3%nat /\ slept r = 1000000000.
Proof. vm_compute. repeat split. Qed.

(** A success observed exactly at the timeout instant is a success. *)
Example success_at_the_timeout_instant :
  let r := Poll (scripted_spec 500000000 (1 * Second) (retries_then_success 2))
             0%nat in
  outcome r = Succeeded /\ slept r = 1 * Second.
Proof. vm_compute. repeat split. Qed.

(** No attempt is made once the timeout has elapsed. *)
Example no_attempt_after_the_timeout :
  let r := Poll (scripted_spec 500000000 1200000000 (retries_then_success 3))
             0%nat in
  outcome r = TimedOut /\ invocations r = 3%nat.
Proof. vm_compute. repeat split. Qed.

Lemma Poll_always_Success_witness :
  let spec := scripted_spec 500000000 0 (fun _ => Success) in
  (forall w, fst (condition spec w) = Success) /\
  outcome (Poll spec 7%nat) = Succeeded /\
  trace (Poll spec 7%nat) = [Probe Success] /\
  invocations (Poll spec 7%nat) = 1%nat /\
  sleeps (Poll spec 7%nat) = 0%nat /\
  final (Poll spec 7%nat) = 8%nat.
Proof.
  split; [intros w; reflexivity | ].
  apply (Poll_always_Success
           (scripted_spec 500000000 0 (fun _ => Success)) 7%nat).
  intros w; reflexivity.
Defined.

Lemma Poll_FatalError_first_witness :
  let spec := scripted_spec 500000000 (300 * Second)
                (fun _ => FatalError webhookDown) in
  fst (condition spec 0%nat) = FatalError webhookDown /\
  outcome (Poll spec 0%nat) = Failed webhookDown /\
  trace (Poll spec 0%nat) = [Probe (FatalError webhookDown)] /\
  invocations (Poll spec 0%nat) = 1%nat /\
  sleeps (Poll spec 0%nat) = 0%nat /\
  final (Poll spec 0%nat) = 1%nat.
Proof.
  split; [reflexivity | ].
  apply (Poll_FatalError_first
           (scripted_spec 500000000 (300 * Second)
              (fun _ => FatalError webhookDown)) 0%nat webhookDown).
  reflexivity.
Defined.

Lemma Poll_zero_timeout_witness :
  let spec := scripted_spec 500000000 0 (fun _ => Retry) in
  ReadinessChecker.timeout spec = 0 /\
  trace (Poll spec 0%nat) = [Probe Retry] /\
  outcome (Poll spec 0%nat) = TimedOut /\
  invocations (Poll spec 0%nat) = 1%nat.
Proof.
  split; [reflexivity | ].
  destruct (Poll_zero_timeout (scripted_spec 500000000 0 (fun _ => Retry))
              0%nat eq_refl) as (Htrace & _ & _ & _ & Hretry).
  split; [exact Htrace | ].
  apply Hretry. intros w; reflexivity.
Defined.

Lemma Poll_retry_then_Success_witness :
  let spec := scripted_spec 500000000 (2 * Second) (retries_then_success 3) in
  (forall j, (j < 3)%nat -> result_at (condition spec) j 0%nat = Retry) /\
  result_at (condition spec) 3 0%nat = Success /\
  Z.of_nat 3 * Z.pos (interval spec) < ReadinessChecker.timeout spec /\
  outcome (Poll spec 0%nat) = Succeeded /\
  invocations (Poll spec 0%nat) = 4%nat.
Proof.
  assert (Hretry : forall j, (j < 3)%nat ->
            result_at
              (condition
                 (scripted_spec 500000000 (2 * Second) (retries_then_success 3)))
              j 0%nat = Retry).
  { intros [ | [ | [ | j]]] Hj; try reflexivity. lia. }
  split; [exact Hretry | ].
  split; [reflexivity | ].
  split; [reflexivity | ].
  apply (Poll_retry_then_Success
           (scripted_spec 500000000 (2 * Second) (retries_then_success 3))
           3 0%nat Hretry); reflexivity.
Defined.

Lemma Poll_always_Retry_witness :
  let spec := scripted_spec 500000000 1200000000 (fun _ => Retry) in
  0 < ReadinessChecker.timeout spec /\
  (forall w, fst (condition spec w) = Retry) /\
  outcome (Poll spec 0%nat) = TimedOut /\
  Z.of_nat (invocations (Poll spec 0%nat)) = 1200000000 / 500000000 + 1.
Proof.
  split; [reflexivity | ].
  split; [intros w; reflexivity | ].
  destruct (Poll_always_Retry
              (scripted_spec 500000000 1200000000 (fun _ => Retry)) 0%nat
              eq_refl (fun w => eq_refl)) as (Hout & Hn & _).
  split; [exact Hout | exact Hn].
Defined.

End PollRuns.

(** * Properties of the program *)

Section ConditionFacts.

Import ReadinessChecker CheckOperatorReady.

Variable clusterClient : Client.

(** What the first closure does in a state [s]: one [Get], and one line
    when it fails. *)
Lemma deploymentCondition_run (s : State) :
  deploymentCondition clusterClient s =
  match Get clusterClient operatorKey (gets s) with
  | Some e =>
      ((false, None),
       {| output := output s ++ [Stdout (Error e)]; gets := S (gets s);
          creates := creates s; deletes := deletes s |})
  | None =>
      ((true, None),
       {| output := output s; gets := S (gets s);
          creates := creates s; deletes := deletes s |})
  end.
Proof.
  unfold deploymentCondition, bind, clusterClient_Get.
  destruct (Get clusterClient operatorKey (gets s)); reflexivity.
Qed.

(** What the second closure does in a state [s]: one [Create], and one
    line when it fails. *)
Lemma collectorCondition_run (s : State) :
  collectorCondition clusterClient s =
  match Create clusterClient collectorInstance (creates s) with
  | Some e =>
      ((false, None),
       {| output := output s ++ [Stdout (Error e)]; gets := gets s;
          creates := S (creates s); deletes := deletes s |})
  | None =>
      ((true, None),
       {| output := output s; gets := gets s;
          creates := S (creates s); deletes := deletes s |})
  end.
Proof.
  unfold collectorCondition, bind, clusterClient_Create.
  destruct (Create clusterClient collectorInstance (creates s)); reflexivity.
Qed.

Lemma deploymentCondition_nil_error (s : State) :
  snd (fst (deploymentCondition clusterClient s)) = None.
Proof.
  rewrite deploymentCondition_run.
  destruct (Get clusterClient operatorKey (gets s)); reflexivity.
Qed.

Lemma collectorCondition_nil_error (s : State) :
  snd (fst (collectorCondition clusterClient s)) = None.
Proof.
  rewrite collectorCondition_run.
  destruct (Create clusterClient collectorInstance (creates s)); reflexivity.
Qed.

(** A condition function whose error is always nil is never fatal for the
    poll that runs it. *)
Lemma PollSpec_of_never_fatal (interval timeout : Duration)
  (cond : ConditionFunc) :
  (forall s, snd (fst (cond s)) = None) ->
  forall w e,
    fst (condition (wait.PollSpec_of interval timeout cond) w) <> FatalError e.
Proof.
  intros Hnil w e. simpl. specialize (Hnil w).
  destruct (cond w) as [[[ | ] [e' | ]] s']; simpl in *; congruence.
Qed.

(** Such a poll ends in [Succeeded] or [TimedOut], and no event of its
    run is a fatal probe. *)
Lemma Poll_of_nil_error_condition (interval timeout : Duration)
  (cond : ConditionFunc) (s : State) :
  (forall s, snd (fst (cond s)) = None) ->
  let r := Poll (wait.PollSpec_of interval timeout cond) s in
  (outcome r = Succeeded \/ outcome r = TimedOut) /\
  Forall (fun ev => is_fatal_probe ev = false) (trace r).
Proof.
  intros Hnil r. subst r. unfold Poll.
  pose proof (PollSpec_of_never_fatal interval timeout cond Hnil) as Hnever.
  split.
  - now apply poll_from_never_fatal.
  - apply Forall_forall. intros [[ | | e] | d] Hin; try reflexivity.
    apply poll_from_probes in Hin. destruct Hin as [w Hw].
    now apply Hnever in Hw.
Qed.

(** With such a condition, the error that [wait.Poll] returns is nil or
    the timeout sentinel. *)
Lemma wait_Poll_of_nil_error_condition (interval timeout : Duration)
  (cond : ConditionFunc) (s : State) :
  (forall s, snd (fst (cond s)) = None) ->
  fst (wait.Poll interval timeout cond s) = None \/
  fst (wait.Poll interval timeout cond s) = Some ErrWaitTimeout.
Proof.
  intros Hnil. unfold wait.Poll. simpl.
  destruct (Poll_of_nil_error_condition interval timeout cond s Hnil)
    as [[Hout | Hout] _]; rewrite Hout; simpl; auto.
Qed.

End ConditionFacts.

Section ConditionClaims.

Import ReadinessChecker CheckOperatorReady.

(** C7. Whatever the cluster answers, each of the two conditions turns an
    error of its probe into a retry (after printing it) and a probe without
    error into a success; so in a poll of either condition no probe error
    reaches the caller: no event of the run is a fatal probe, and the
    caller sees only the outcome, which is [Succeeded] or [TimedOut]. *)
Theorem probe_errors_are_retried
  (clusterClient : Client) (flags : Flags) (s : State) :
  let deployment := deploymentCondition clusterClient in
  let collector := collectorCondition clusterClient in
  let pollOf cond :=
    ReadinessChecker.Poll
      (wait.PollSpec_of pollInterval (timeoutPoll flags) cond) s in
  wait.classify (fst (deployment s)) =
    match Get clusterClient operatorKey (gets s) with
    | Some _ => Retry
    | None => Success
    end /\
  output (snd (deployment s)) =
    output s ++
    match Get clusterClient operatorKey (gets s) with
    | Some e => [Stdout (Error e)]
    | None => []
    end /\
  wait.classify (fst (collector s)) =
    match Create clusterClient collectorInstance (creates s) with
    | Some _ => Retry
    | None => Success
    end /\
  output (snd (collector s)) =
    output s ++
    match Create clusterClient collectorInstance (creates s) with
    | Some e => [Stdout (Error e)]
    | None => []
    end /\
  Forall (fun ev => is_fatal_probe ev = false) (trace (pollOf deployment)) /\
  (outcome (pollOf deployment) = Succeeded \/
   outcome (pollOf deployment) = TimedOut) /\
  Forall (fun ev => is_fatal_probe ev = false) (trace (pollOf collector)) /\
  (outcome (pollOf collector) = Succeeded \/
   outcome (pollOf collector) = TimedOut).
Proof.
  cbv zeta.
  rewrite deploymentCondition_run, collectorCondition_run.
  split; [ | split; [ | split; [ | split]]].
  - destruct (Get _ _ _); reflexivity.
  - destruct (Get _ _ _); simpl; [reflexivity | now rewrite app_nil_r].
  - destruct (Create _ _ _); reflexivity.
  - destruct (Create _ _ _); simpl; [reflexivity | now rewrite app_nil_r].
  - pose proof (Poll_of_nil_error_condition pollInterval (timeoutPoll flags)
                  _ s (deploymentCondition_nil_error clusterClient))
      as [Ho Ht].
    pose proof (Poll_of_nil_error_condition pollInterval (timeoutPoll flags)
                  _ s (collectorCondition_nil_error clusterClient))
      as [Ho' Ht'].
    repeat split; assumption.
Qed.

(** C8. Both condition functions that the program passes to [wait.Poll]
    return a nil error in every state, so neither poll can end with the
    error of a condition: each poll ends in [Succeeded] or [TimedOut], and
    the error that [wait.Poll] returns to [main] is nil (success) or the
    timeout sentinel. *)
Theorem polls_end_in_success_or_timeout
  (clusterClient : Client) (flags : Flags) (s : State) :
  let deployment := deploymentCondition clusterClient in
  let collector := collectorCondition clusterClient in
  let outcomeOf cond :=
    outcome
      (ReadinessChecker.Poll
         (wait.PollSpec_of pollInterval (timeoutPoll flags) cond) s) in
  let errOf cond :=
    fst (wait.Poll pollInterval (timeoutPoll flags) cond s) in
  snd (fst (deployment s)) = None /\
  snd (fst (collector s)) = None /\
  (outcomeOf deployment = Succeeded /\ errOf deployment = None \/
   outcomeOf deployment = TimedOut /\ errOf deployment = Some ErrWaitTimeout)
  /\
  (outcomeOf collector = Succeeded /\ errOf collector = None \/
   outcomeOf collector = TimedOut /\ errOf collector = Some ErrWaitTimeout).
Proof.
  cbv zeta.
  split; [apply deploymentCondition_nil_error | ].
  split; [apply collectorCondition_nil_error | ].
  unfold wait.Poll. cbn [fst].
  split.
  - destruct (Poll_of_nil_error_condition pollInterval (timeoutPoll flags)
                _ s (deploymentCondition_nil_error clusterClient))
      as [[Ho | Ho] _]; rewrite Ho; [left | right]; split; reflexivity.
  - destruct (Poll_of_nil_error_condition pollInterval (timeoutPoll flags)
                _ s (collectorCondition_nil_error clusterClient))
      as [[Ho | Ho] _]; rewrite Ho; [left | right]; split; reflexivity.
Qed.

End ConditionClaims.

Section MainFacts.

Import CheckOperatorReady.

Variable Poll : PollFunc.
Variable env : Env.
Variable flags : Flags.

Lemma connect_no_kubeconfig (s : State) (config : Config) (e : error) :
  BuildConfigFromFlags env EmptyString (kubeconfigPath flags) = (config, Some e) ->
  fst (connect env flags s) = Exited 1.
Proof. intros H. unfold connect. rewrite H. reflexivity. Qed.

Lemma connect_no_client (s : State) (config : Config)
  (clusterClient : Client) (e : error) :
  BuildConfigFromFlags env EmptyString (kubeconfigPath flags) = (config, None) ->
  New env config = (clusterClient, Some e) ->
  fst (connect env flags s) = Exited 1.
Proof. intros H H'. unfold connect. rewrite H, H'. reflexivity. Qed.

Lemma connect_ok (s : State) (config : Config) (clusterClient : Client) :
  BuildConfigFromFlags env EmptyString (kubeconfigPath flags) = (config, None) ->
  New env config = (clusterClient, None) ->
  connect env flags s = (Done clusterClient, s).
Proof. intros H H'. unfold connect. rewrite H, H'. reflexivity. Qed.

(** An exit during [connect] is the exit of [main]. *)
Lemma main_exits_with_connect (s : State) (code : Z) :
  fst (connect env flags s) = Exited code ->
  exit_code (main Poll env flags s) = code.
Proof.
  intros H. unfold main, bindM, exit_code.
  destruct (connect env flags s) as [[c | code'] s']; simpl in H.
  - discriminate.
  - injection H as ->. reflexivity.
Qed.

(** What the block after the first poll leaves behind. *)
Lemma reportOperator_run (err : option error) (s : State) :
  reportOperator err s =
  (tt,
   {| output :=
        output s
        ++ match err with Some e => [Stdout (Error e)] | None => [] end
        ++ [Stdout "OTEL Collector Operator is deployed properly!"];
      gets := gets s; creates := creates s; deletes := deletes s |}).
Proof.
  destruct err as [e | ]; unfold reportOperator, bind, fmt.Println, write, ret;
    simpl; [rewrite <- app_assoc | ]; reflexivity.
Qed.

(** The second poll is entered after one [Delete] and one line. *)
Lemma waitForCollector_run (clusterClient : Client) (s : State) :
  waitForCollector Poll flags clusterClient s =
  Poll pollInterval (timeoutPoll flags) (collectorCondition clusterClient)
    {| output :=
         output s
         ++ [Stdout "Ensure the creation of OTEL Collectors is available"];
       gets := gets s; creates := creates s; deletes := S (deletes s) |}.
Proof. reflexivity. Qed.

(** Once connected, [main] is the two polls in sequence, and the error of
    the first one is not looked at again after [reportOperator]. *)
Lemma main_connected (s : State) (config : Config) (clusterClient : Client) :
  BuildConfigFromFlags env EmptyString (kubeconfigPath flags) = (config, None) ->
  New env config = (clusterClient, None) ->
  main Poll env flags s =
  let (err1, s1) := waitForOperator Poll flags clusterClient s in
  let (err2, s2) :=
    waitForCollector Poll flags clusterClient (snd (reportOperator err1 s1)) in
  finish clusterClient err2 s2.
Proof.
  intros H H'. unfold main, bindM at 1.
  rewrite (connect_ok s config clusterClient H H').
  unfold bindM, lift.
  destruct (waitForOperator Poll flags clusterClient s) as [err1 s1].
  destruct (reportOperator err1 s1) as [[] s1'] eqn:Hrep. simpl.
  destruct (waitForCollector Poll flags clusterClient s1') as [err2 s2].
  reflexivity.
Qed.

Lemma finish_exit_code (clusterClient : Client) (err : option error)
  (s : State) :
  exit_code (finish clusterClient err s) =
  match err with Some _ => 1 | None => 0 end.
Proof. destruct err; reflexivity. Qed.

End MainFacts.

Section MainClaims.

Import CheckOperatorReady.

(** C2. The exit code of the process.  It is 1 when the kubeconfig cannot
    be loaded and 1 when the client cannot be built.  Once connected, it is
    decided by the second poll alone: 1 when that poll returns an error
    (its timeout), 0 when it returns none, so 0 on full success.  The
    error of the first poll, a timeout included, is printed and then
    dropped: it does not enter the exit code. *)
Theorem main_exit_code
  (Poll : PollFunc) (env : Env) (flags : Flags) (s : State) :
  let kubeconfig :=
    BuildConfigFromFlags env EmptyString (kubeconfigPath flags) in
  let code := exit_code (main Poll env flags s) in
  (forall config e, kubeconfig = (config, Some e) -> code = 1) /\
  (forall config clusterClient e,
      kubeconfig = (config, None) ->
      New env config = (clusterClient, Some e) ->
      code = 1) /\
  (forall config clusterClient err1 s1 err2 s2,
      kubeconfig = (config, None) ->
      New env config = (clusterClient, None) ->
      waitForOperator Poll flags clusterClient s = (err1, s1) ->
      waitForCollector Poll flags clusterClient
        (snd (reportOperator err1 s1)) = (err2, s2) ->
      code = match err2 with Some _ => 1 | None => 0 end /\
      output (snd (reportOperator err1 s1)) =
        output s1
        ++ match err1 with Some e => [Stdout (Error e)] | None => [] end
        ++ [Stdout "OTEL Collector Operator is deployed properly!"]).
Proof.
  cbv zeta. split; [ | split].
  - intros config e H. apply main_exits_with_connect.
    now apply (connect_no_kubeconfig env flags s config e).
  - intros config clusterClient e H H'. apply main_exits_with_connect.
    now apply (connect_no_client env flags s config clusterClient e).
  - intros config clusterClient err1 s1 err2 s2 H H' H1 H2.
    rewrite (main_connected Poll env flags s config clusterClient H H').
    rewrite H1, H2, finish_exit_code, reportOperator_run.
    split; reflexivity.
Qed.

(** C9. Once the first poll has returned, with whatever error, a timeout
    included, the program prints "OTEL Collector Operator is deployed
    properly!" and goes on to the second check: the rest of [main] is the
    poll of the collector condition, entered with that line printed, one
    [Delete] made and the next line printed. *)
Theorem deployed_line_is_unconditional
  (Poll : PollFunc) (env : Env) (flags : Flags) (s : State)
  (config : Config) (clusterClient : Client)
  (err1 : option error) (s1 : State) :
  BuildConfigFromFlags env EmptyString (kubeconfigPath flags)
    = (config, None) ->
  New env config = (clusterClient, None) ->
  waitForOperator Poll flags clusterClient s = (err1, s1) ->
  let printed :=
    match err1 with Some e => [Stdout (Error e)] | None => [] end
    ++ [Stdout "OTEL Collector Operator is deployed properly!"] in
  output (snd (reportOperator err1 s1)) = output s1 ++ printed /\
  main Poll env flags s =
    (let (err2, s2) :=
       Poll pollInterval (timeoutPoll flags) (collectorCondition clusterClient)
         {| output :=
              (output s1 ++ printed)
              ++ [Stdout "Ensure the creation of OTEL Collectors is available"];
            gets := gets s1;
            creates := creates s1;
            deletes := S (deletes s1) |} in
     finish clusterClient err2 s2).
Proof.
  intros H H' H1. cbv zeta.
  rewrite (main_connected Poll env flags s config clusterClient H H'), H1.
  rewrite waitForCollector_run, reportOperator_run. simpl.
  split; reflexivity.
Qed.

(** C10. The answers of [Delete] are not looked at.  Two clusters that
    differ only in what [Delete] answers give the same run of [main]: the
    same exit code, the same lines and the same calls.  So an exit code 0
    says nothing about the deletion: there is a run that exits with 0 in
    which both [Delete] calls failed. *)
Theorem Delete_result_is_ignored :
  (forall (Poll : PollFunc)
          (build : string -> string -> Config * option error)
          (new_error : Config -> option error)
          (get : ObjectKey -> nat -> option error)
          (create delete delete' : OpenTelemetryCollector -> nat -> option error)
          (flags : Flags) (s : State),
      let env del :=
        {| BuildConfigFromFlags := build;
           New := fun config =>
                    ({| Get := get; Create := create; Delete := del |},
                     new_error config) |} in
      main Poll (env delete) flags s = main Poll (env delete') flags s) /\
  (let clusterClient :=
     Samples.client_of Samples.never Samples.never (Samples.always Samples.gone)
   in
   let run :=
     main wait.Poll (Samples.reachable clusterClient) (Samples.flags_of 300)
       start in
   exit_code run = 0 /\
   deletes (snd run) = 2%nat /\
   Delete clusterClient collectorInstance 0 = Some Samples.gone /\
   Delete clusterClient collectorInstance 1 = Some Samples.gone).
Proof.
  split.
  - intros Poll build new_error get create delete delete' flags s. cbv zeta.
    unfold main, bindM at 1 3.
    unfold connect. cbn [BuildConfigFromFlags New].
    destruct (build EmptyString (kubeconfigPath flags)) as [config [e | ]];
      [reflexivity | ].
    destruct (new_error config) as [e | ]; reflexivity.
  - vm_compute. repeat split.
Qed.

End MainClaims.

(** ** Runs of the program, with the modelled [wait.Poll] *)

Section MainRuns.

Import CheckOperatorReady Samples.

(** The operator is there and the webhook answers at once. *)
(** The durations that [main] passes to the polls. *)
Example pollInterval_value :
  pollInterval = 500000000 /\
  Z.pos (ReadinessChecker.interval
           (wait.PollSpec_of pollInterval 0 (deploymentCondition
              (client_of never never never)))) = pollInterval.
Proof. split; reflexivity. Qed.

Example timeoutPoll_default : timeoutPoll (flags_of 300) = 300 * Second.
Proof. reflexivity. Qed.

(** A timeout that does not fit in 64 bits of nanoseconds wraps around. *)
Example timeoutPoll_wraps :
  timeoutPoll (flags_of 9223372037) = - 9223372036709551616.
Proof. reflexivity. Qed.

Example run_full_success :
  main wait.Poll (reachable (client_of never never never)) (flags_of 300) start
  = (Done tt,
     {| output :=
          [Stdout "Waiting until the OTEL Collector Operator is deployed";
           Stdout "OTEL Collector Operator is deployed properly!";
           Stdout "Ensure the creation of OTEL Collectors is available"];
        gets := 1; creates := 1; deletes := 2 |}).
Proof. vm_compute. reflexivity. Qed.

(** The webhook never answers: the second poll times out after three
    attempts (timeout 1s) and the process exits with 1. *)
Example run_collector_timeout :
  let run :=
    main wait.Poll (reachable (client_of never (always webhookDown) never))
      (flags_of 1) start in
  exit_code run = 1 /\ creates (snd run) = 3%nat /\ deletes (snd run) = 1%nat /\
  last (output (snd run)) (Stdout EmptyString)
  = Stdout "timed out waiting for the condition".
Proof. vm_compute. repeat split. Qed.

(** The operator never shows up: the first poll times out, the timeout is
    printed, the next line claims a proper deployment, and the process
    still exits with 0. *)
Example run_operator_timeout :
  main wait.Poll (reachable (client_of (always notFound) never never))
    (flags_of 0) start
  = (Done tt,
     {| output :=
          [Stdout "Waiting until the OTEL Collector Operator is deployed";
           Stdout (Error notFound);
           Stdout "timed out waiting for the condition";
           Stdout "OTEL Collector Operator is deployed properly!";
           Stdout "Ensure the creation of OTEL Collectors is available"];
        gets := 1; creates := 1; deletes := 2 |}).
Proof. vm_compute. reflexivity. Qed.

(** The webhook answers at the third attempt. *)
Example run_webhook_late :
  let run :=
    main wait.Poll (reachable (client_of never (fails_until 2 webhookDown) never))
      (flags_of 300) start in
  exit_code run = 0 /\ creates (snd run) = 3%nat.
Proof. vm_compute. repeat split. Qed.

Lemma main_exit_code_witness :
  let clusterClient := client_of (always notFound) never (always gone) in
  let flags := flags_of 1 in
  exit_code (main wait.Poll (no_kubeconfig clusterClient) flags start) = 1 /\
  exit_code (main wait.Poll (no_client clusterClient) flags start) = 1 /\
  exists s1 s2,
    BuildConfigFromFlags (reachable clusterClient) EmptyString
      (kubeconfigPath flags)
      = ({| Host := "https://127.0.0.1:6443" |}, None) /\
    New (reachable clusterClient) {| Host := "https://127.0.0.1:6443" |}
      = (clusterClient, None) /\
    waitForOperator wait.Poll flags clusterClient start
      = (Some ErrWaitTimeout, s1) /\
    waitForCollector wait.Poll flags clusterClient
      (snd (reportOperator (Some ErrWaitTimeout) s1)) = (None, s2) /\
    exit_code (main wait.Poll (reachable clusterClient) flags start) = 0.
Proof.
  cbv zeta.
  set (clusterClient := client_of (always notFound) never (always gone)).
  set (flags := flags_of 1).
  split; [ | split].
  - exact (proj1 (main_exit_code wait.Poll (no_kubeconfig clusterClient)
                    flags start) _ _ eq_refl).
  - exact (proj1 (proj2 (main_exit_code wait.Poll (no_client clusterClient)
                           flags start)) _ _ _ eq_refl eq_refl).
  - set (r1 := waitForOperator wait.Poll flags clusterClient start).
    set (r2 := waitForCollector wait.Poll flags clusterClient
                 (snd (reportOperator (Some ErrWaitTimeout) (snd r1)))).
    assert (H1 : r1 = (Some ErrWaitTimeout, snd r1))
      by (vm_compute; reflexivity).
    assert (H2 : r2 = (None, snd r2)) by (vm_compute; reflexivity).
    exists (snd r1), (snd r2).
    split; [reflexivity | ].
    split; [reflexivity | ].
    split; [exact H1 | ].
    split; [exact H2 | ].
    exact (proj1 (proj2 (proj2 (main_exit_code wait.Poll
                                  (reachable clusterClient) flags start))
                    _ _ _ _ _ _ eq_refl eq_refl H1 H2)).
Defined.

Lemma deployed_line_is_unconditional_witness :
  let clusterClient := client_of (always notFound) never never in
  let env := reachable clusterClient in
  let flags := flags_of 0 in
  let s1 :=
    {| output :=
         [Stdout "Waiting until the OTEL Collector Operator is deployed";
          Stdout (Error notFound)];
       gets := 1; creates := 0; deletes := 0 |} in
  BuildConfigFromFlags env EmptyString (kubeconfigPath flags)
    = ({| Host := "https://127.0.0.1:6443" |}, None) /\
  New env {| Host := "https://127.0.0.1:6443" |} = (clusterClient, None) /\
  waitForOperator wait.Poll flags clusterClient start
    = (Some ErrWaitTimeout, s1) /\
  output (snd (reportOperator (Some ErrWaitTimeout) s1)) =
    [Stdout "Waiting until the OTEL Collector Operator is deployed";
     Stdout (Error notFound);
     Stdout "timed out waiting for the condition";
     Stdout "OTEL Collector Operator is deployed properly!"].
Proof.
  cbv zeta.
  split; [reflexivity | ].
  split; [reflexivity | ].
  split; [vm_compute; reflexivity | ].
  refine (proj1 (deployed_line_is_unconditional wait.Poll
                   (reachable (client_of (always notFound) never never))
                   (flags_of 0) start {| Host := "https://127.0.0.1:6443" |}
                   (client_of (always notFound) never never)
                   (Some ErrWaitTimeout) _ eq_refl eq_refl _)).
  vm_compute; reflexivity.
Defined.

End MainRuns.

(** * Further properties of the program *)

(** ** The timeout handed to the polls *)

Section TimeoutFacts.

Import CheckOperatorReady.

Lemma Second_value : Second = 1000000000.
Proof. reflexivity. Qed.

Lemma int64_small (z : Z) :
  - 9223372036854775808 <= z < 9223372036854775808 -> int64 z = z.
Proof.
  intros H. unfold int64.
  change (2 ^ 63) with 9223372036854775808.
  change (2 ^ 64) with 18446744073709551616.
  rewrite Z.mod_small by lia. lia.
Qed.

Lemma int64_range (z : Z) :
  - 9223372036854775808 <= int64 z < 9223372036854775808.
Proof.
  unfold int64.
  change (2 ^ 63) with 9223372036854775808.
  change (2 ^ 64) with 18446744073709551616.
  pose proof (Z.mod_pos_bound (z + 9223372036854775808) 18446744073709551616
                ltac:(lia)).
  lia.
Qed.

(** X1. The poll timeout is the [--timeout] flag in seconds exactly when
    the flag lies between -9223372036 and 9223372036: beyond, the product
    with [time.Second] does not fit in 64 bits. *)
Theorem timeoutPoll_exact_iff (flags : Flags) :
  timeoutPoll flags = timeout flags * 1000000000 <->
  - 9223372036 <= timeout flags <= 9223372036.
Proof.
  unfold timeoutPoll. rewrite Second_value. split.
  - intros H.
    pose proof (int64_range (timeout flags * 1000000000)) as Hr.
    rewrite H in Hr. lia.
  - intros H. apply int64_small. lia.
Qed.

(** X2. A flag between 9223372037 and 18446744073 seconds wraps around
    once: the polls get the negative timeout [timeout * 10^9 - 2^64]. *)
Theorem timeoutPoll_wraps_negative (flags : Flags) :
  9223372037 <= timeout flags <= 18446744073 ->
  timeoutPoll flags = timeout flags * 1000000000 - 18446744073709551616 /\
  timeoutPoll flags < 0.
Proof.
  intros H. unfold timeoutPoll, int64. rewrite Second_value.
  change (2 ^ 63) with 9223372036854775808.
  change (2 ^ 64) with 18446744073709551616.
  replace (timeout flags * 1000000000 + 9223372036854775808)
    with ((timeout flags * 1000000000 - 9223372036854775808)
          + 1 * 18446744073709551616) by ring.
  rewrite Z_mod_plus_full, Z.mod_small by lia.
  lia.
Qed.

Lemma timeoutPoll_wraps_negative_witness :
  9223372037 <= timeout (Samples.flags_of 9223372037) <= 18446744073 /\
  timeoutPoll (Samples.flags_of 9223372037) = - 9223372036709551616.
Proof.
  assert (H : 9223372037 <= timeout (Samples.flags_of 9223372037)
              <= 18446744073) by (simpl; lia).
  split; [exact H | ].
  exact (proj1 (timeoutPoll_wraps_negative (Samples.flags_of 9223372037) H)).
Defined.

End TimeoutFacts.

(** ** What the two conditions do to the cluster and to the output *)

Section InvocationFacts.

Import CheckOperatorReady Invocations.

Local Open Scope nat_scope.

Variable clusterClient : Client.

Lemma invoke_n_S (cond : ConditionFunc) (n : nat) (s : State) :
  invoke_n cond (S n) s = invoke_n cond n (snd (cond s)).
Proof. reflexivity. Qed.

(** The state after [n] invocations of the first condition. *)
Lemma invoke_n_deploymentCondition (n : nat) (s : State) :
  invoke_n (deploymentCondition clusterClient) n s =
  {| output :=
       output s ++ error_lines (Get clusterClient operatorKey) (gets s) n;
     gets := gets s + n;
     creates := creates s;
     deletes := deletes s |}.
Proof.
  revert s. induction n as [ | n IH]; intros s.
  - destruct s as [out g c d]. simpl.
    now rewrite app_nil_r, Nat.add_0_r.
  - rewrite invoke_n_S, IH, deploymentCondition_run.
    destruct (Get clusterClient operatorKey (gets s)) as [e | ] eqn:Hget;
      simpl; rewrite Hget; simpl;
      rewrite <- ?app_assoc, Nat.add_succ_r; reflexivity.
Qed.

(** The state after [n] invocations of the second condition. *)
Lemma invoke_n_collectorCondition (n : nat) (s : State) :
  invoke_n (collectorCondition clusterClient) n s =
  {| output :=
       output s
       ++ error_lines (Create clusterClient collectorInstance) (creates s) n;
     gets := gets s;
     creates := creates s + n;
     deletes := deletes s |}.
Proof.
  revert s. induction n as [ | n IH]; intros s.
  - destruct s as [out g c d]. simpl.
    now rewrite app_nil_r, Nat.add_0_r.
  - rewrite invoke_n_S, IH, collectorCondition_run.
    destruct (Create clusterClient collectorInstance (creates s))
      as [e | ] eqn:Hcreate;
      simpl; rewrite Hcreate; simpl;
      rewrite <- ?app_assoc, Nat.add_succ_r; reflexivity.
Qed.

(** The number of lines for [n] answers is the number of errors among
    them, so at most [n]. *)
Lemma error_lines_length (reply : nat -> option error) (first n : nat) :
  List.length (error_lines reply first n) <= n.
Proof.
  revert first. induction n as [ | n IH]; intros first; simpl; [lia | ].
  rewrite List.length_app. specialize (IH (S first)).
  destruct (reply first); simpl; lia.
Qed.

(** X3. After [n] invocations of the first condition, the program has
    made exactly [n] more [Get] calls and no [Create] or [Delete] call, and
    has written, in order, one line for each [Get] that failed and nothing
    else: at most [n] lines. *)
Theorem deploymentCondition_invocations (n : nat) (s : State) :
  let s' := invoke_n (deploymentCondition clusterClient) n s in
  gets s' = gets s + n /\
  creates s' = creates s /\
  deletes s' = deletes s /\
  output s' =
    output s ++ error_lines (Get clusterClient operatorKey) (gets s) n /\
  List.length (output s') <= List.length (output s) + n.
Proof.
  cbv zeta. rewrite invoke_n_deploymentCondition. cbn [gets creates deletes output].
  repeat split.
  rewrite List.length_app.
  pose proof (error_lines_length (Get clusterClient operatorKey) (gets s) n).
  lia.
Qed.

(** X4. After [n] invocations of the second condition, the program has
    made exactly [n] more [Create] calls and no [Get] or [Delete] call, and
    has written, in order, one line for each [Create] that failed and
    nothing else: at most [n] lines. *)
Theorem collectorCondition_invocations (n : nat) (s : State) :
  let s' := invoke_n (collectorCondition clusterClient) n s in
  gets s' = gets s /\
  creates s' = creates s + n /\
  deletes s' = deletes s /\
  output s' =
    output s
    ++ error_lines (Create clusterClient collectorInstance) (creates s) n /\
  List.length (output s') <= List.length (output s) + n.
Proof.
  cbv zeta. rewrite invoke_n_collectorCondition. cbn [gets creates deletes output].
  repeat split.
  rewrite List.length_app.
  pose proof (error_lines_length (Create clusterClient collectorInstance)
                (creates s) n).
  lia.
Qed.

End InvocationFacts.

(** The modelled [wait.Poll] is condition driven. *)
Lemma wait_Poll_condition_driven : Invocations.condition_driven wait.Poll.
Proof.
  intros interval timeout cond s. unfold wait.Poll, ReadinessChecker.Poll.
  cbn [snd].
  generalize 0.
  intros elapsed. revert elapsed s.
  apply (poll_from_ind (wait.PollSpec_of interval timeout cond)
           (fun _ s r =>
              exists n, ReadinessChecker.final r = Invocations.invoke_n cond n s)).
  - intros _ s _. exists 1%nat. simpl. destruct (cond s); reflexivity.
  - intros _ s e _. exists 1%nat. simpl. destruct (cond s); reflexivity.
  - intros _ s _ _. exists 1%nat. simpl. destruct (cond s); reflexivity.
  - intros elapsed s _ _ [n Hn]. exists (S n).
    cbn [ReadinessChecker.final ReadinessChecker.after]. rewrite Hn.
    simpl. destruct (cond s); reflexivity.
Qed.

(** ** The runs of [main] *)

Section RunFacts.

Import CheckOperatorReady Invocations.

Variable Poll : PollFunc.
Variable env : Env.
Variable flags : Flags.



(** X5. When the kubeconfig cannot be loaded, [main] writes exactly one
    line, to the standard error, with the message of the error, and exits
    with 1 without a single call to the cluster or to the polling
    function. *)
Theorem main_without_kubeconfig (s : State) (config : Config) (e : error) :
  BuildConfigFromFlags env EmptyString (kubeconfigPath flags)
    = (config, Some e) ->
  main Poll env flags s =
  (Exited 1,
   {| output :=
        output s ++ [Stderr ("Error reading the kubeconfig: " ++ Error e)];
      gets := gets s; creates := creates s; deletes := deletes s |}).
Proof.
  intros H. unfold main, bindM at 1, connect. rewrite H. reflexivity.
Qed.

(** X6. When the client cannot be built, [main] writes exactly one line,
    to the standard error, and exits with 1 without a single call to the
    cluster or to the polling function.  The line is written by the
    builtin [println] applied to the error value, so it does not carry the
    message of the error. *)
Theorem main_without_client (s : State) (config : Config)
  (clusterClient : Client) (e : error) :
  BuildConfigFromFlags env EmptyString (kubeconfigPath flags)
    = (config, None) ->
  New env config = (clusterClient, Some e) ->
  main Poll env flags s =
  (Exited 1,
   {| output := output s ++ [StderrValue "Creating the Kubernetes client" e];
      gets := gets s; creates := creates s; deletes := deletes s |}).
Proof.
  intros H H'. unfold main, bindM at 1, connect. rewrite H, H'. reflexivity.
Qed.




End RunFacts.

(** ** Sample runs for the properties above *)

Section RunWitnesses.

Import CheckOperatorReady Invocations Samples.

Lemma main_without_kubeconfig_witness :
  let env := no_kubeconfig (client_of never never never) in
  let e := errorString "stat /root/.kube/config: no such file or directory" in
  BuildConfigFromFlags env EmptyString (kubeconfigPath (flags_of 300))
    = ({| Host := EmptyString |}, Some e) /\
  main wait.Poll env (flags_of 300) start =
  (Exited 1,
   {| output :=
        [Stderr
           "Error reading the kubeconfig: stat /root/.kube/config: no such file or directory"];
      gets := 0; creates := 0; deletes := 0 |}).
Proof.
  cbv zeta. split; [reflexivity | ].
  exact (main_without_kubeconfig wait.Poll
           (no_kubeconfig (client_of never never never)) (flags_of 300) start
           {| Host := EmptyString |}
           (errorString "stat /root/.kube/config: no such file or directory")
           eq_refl).
Defined.

Lemma main_without_client_witness :
  let clusterClient := client_of never never never in
  let env := no_client clusterClient in
  BuildConfigFromFlags env EmptyString (kubeconfigPath (flags_of 300))
    = ({| Host := "https://127.0.0.1:6443" |}, None) /\
  New env {| Host := "https://127.0.0.1:6443" |}
    = (clusterClient, Some (errorString "no such host")) /\
  main wait.Poll env (flags_of 300) start =
  (Exited 1,
   {| output :=
        [StderrValue "Creating the Kubernetes client"
           (errorString "no such host")];
      gets := 0; creates := 0; deletes := 0 |}).
Proof.
  cbv zeta. split; [reflexivity | ]. split; [reflexivity | ].
  exact (main_without_client wait.Poll
           (no_client (client_of never never never)) (flags_of 300) start
           {| Host := "https://127.0.0.1:6443" |}
           (client_of never never never) (errorString "no such host")
           eq_refl eq_refl).
Defined.



(** The same shape on a run with the modelled [wait.Poll]: three failed
    reads of the deployment, then a collector created at the second
    attempt. *)
Example run_shape_with_wait_Poll :
  main wait.Poll
    (reachable (client_of (always notFound) (fails_until 1 webhookDown) never))
    (flags_of 1) start
  = (Done tt,
     {| output :=
          [Stdout "Waiting until the OTEL Collector Operator is deployed"]
          ++ repeat (Stdout (Error notFound)) 3
          ++ [Stdout "timed out waiting for the condition";
              Stdout "OTEL Collector Operator is deployed properly!";
              Stdout "Ensure the creation of OTEL Collectors is available";
              Stdout (Error webhookDown)];
        gets := 3; creates := 2; deletes := 2 |}).
Proof. vm_compute. reflexivity. Qed.

End RunWitnesses.
